(** * fetch_and_process_players: the statistics transformation pipeline

    Two shallow embeddings of [analysis/fetch_and_process_players.py].

    The first reads the script over exact rationals ([Q]) and typed rows.
    It states which expression is evaluated over which batch (norm, the
    derived columns) and the structure of the pipeline (projection, volume
    filter, coercion, dropna, the two tables written); none of these
    properties depends on rounding.

    The second, [B64], is the script as it runs: binary64 arithmetic with
    infinities and NaN, reductions that skip NaN, a fetched table whose
    columns are looked up by label and whose cells are dynamically typed,
    and the errors the lookups and comparisons raise.  Everything that
    asserts a bound, a comparison or a tier is stated on [B64]. *)

From Stdlib Require Import QArith Qround Qminmax ZArith List String Ascii Bool Lia Lqa.
From Stdlib Require Import PrimFloat Uint63.
Import ListNotations.
Open Scope Q_scope.
Set Warnings "-inexact-float".

(** ** Series: the column operations the script uses *)

Module Series.

Definition t := list Q.

(** [a + b] on two columns of one frame (same index). *)
Definition add (a b : t) : t := map (fun ab => fst ab + snd ab) (combine a b).

(** [a - b] on two columns of one frame. *)
Definition sub (a b : t) : t := map (fun ab => fst ab - snd ab) (combine a b).

(** [c * a] for a scalar [c]. *)
Definition scale (c : Q) (a : t) : t := map (fun v => c * v) a.

(** [-a]. *)
Definition neg (a : t) : t := map (fun v => - v) a.

(** [a - c] for a scalar [c]. *)
Definition sub_scalar (a : t) (c : Q) : t := map (fun v => v - c) a.

(** [a / c] for a scalar [c]. *)
Definition div_scalar (a : t) (c : Q) : t := map (fun v => v / c) a.

(** [a.min()]: [NaN] on the empty series. *)
Definition min (a : t) : option Q :=
  match a with
  | [] => None
  | x :: rest => Some (fold_left Qmin rest x)
  end.

(** [a.max()]: [NaN] on the empty series. *)
Definition max (a : t) : option Q :=
  match a with
  | [] => None
  | x :: rest => Some (fold_left Qmax rest x)
  end.

Fixpoint insert_sorted (x : Q) (l : list Q) : list Q :=
  match l with
  | [] => [x]
  | y :: rest => if Qle_bool x y then x :: l else y :: insert_sorted x rest
  end.

(** The values in ascending order. *)
Definition sort_values (a : t) : t := fold_right insert_sorted [] a.

(** [a.quantile(q)] with the default linear interpolation: the value at
    the virtual index [q * (n - 1)] of the sorted values, interpolated
    between its two neighbours; [NaN] on the empty series. *)
Definition quantile (a : t) (q : Q) : option Q :=
  match a with
  | [] => None
  | _ :: _ =>
      let sorted := sort_values a in
      let last := (Z.of_nat (List.length a) - 1)%Z in
      let virt := q * inject_Z last in
      let prev := Qfloor virt in
      let next := Z.min (prev + 1) last in
      let gamma := virt - inject_Z prev in
      let lo := nth (Z.to_nat prev) sorted 0 in
      let hi := nth (Z.to_nat next) sorted 0 in
      Some (lo + gamma * (hi - lo))
  end.

End Series.

(** ** norm *)

Definition eps : Q := 1e-9.

(** [(series - series.min()) / (series.max() - series.min() + 1e-9)].
    The minimum and maximum are [NaN] only for the empty series, whose
    elementwise image is the empty series. *)
Definition norm (series : Series.t) : Series.t :=
  match Series.min series, Series.max series with
  | Some lo, Some hi =>
      Series.div_scalar (Series.sub_scalar series lo) (hi - lo + eps)
  | _, _ => []
  end.

(** ** Tables *)

(** A cell of the fetched table: a number, a text, or a missing value. *)
Inductive cell : Type :=
| Num (q : Q)
| Str (s : string)
| NaN.

(** The eight columns the script keeps; [N] is the type of the name
    column and [V] the type of the six numeric columns at one stage. *)
Record Row (N V : Type) : Type := mkRow {
  PLAYER_NAME : N;
  GP : Z;
  PTS : V;
  REB : V;
  AST : V;
  TOV : V;
  FG_PCT : V;
  FG3_PCT : V
}.

Arguments mkRow {N V}.
Arguments PLAYER_NAME {N V}.
Arguments GP {N V}.
Arguments PTS {N V}.
Arguments REB {N V}.
Arguments AST {N V}.
Arguments TOV {N V}.
Arguments FG_PCT {N V}.
Arguments FG3_PCT {N V}.

(** A row of the API result: the eight columns and whatever else the
    provider sends. *)
Record FetchedRow : Type := mkFetched {
  cols : Row (option string) cell;
  other : list (string * cell)
}.

Inductive Tier : Type := bust | role_player | star.

(** A row of players_processed.csv. *)
Record Processed : Type := mkProcessed {
  player_name : string;
  height_m : Q;
  weight_kg : Q;
  scoring : Q;
  playmaking : Q;
  discipline : Q;
  luck_factor : Q;
  tier : Tier
}.

(** The two files [main] writes to data/, as tables. *)
Record Files : Type := mkFiles {
  players_raw : list FetchedRow;
  players_processed : list Processed
}.

(** Comparisons against a threshold that may be [NaN] (always false then). *)
Definition le_thr (x : Q) (thr : option Q) : bool :=
  match thr with
  | Some q => Qle_bool x q
  | None => false
  end.

Definition ge_thr (x : Q) (thr : option Q) : bool :=
  match thr with
  | Some q => Qle_bool q x
  | None => false
  end.

(** [tier_row], with the two thresholds it closes over and the row's
    impact_raw. *)
Definition tier_row (q_low q_high : option Q) (impact_raw : Q) : Tier :=
  if le_thr impact_raw q_low then bust
  else if ge_thr impact_raw q_high then star
  else role_player.

(** The frame after [dropna]: every cell is present. *)
Definition Frame := list (Row string Q).

Definition col {N V A : Type} (f : Row N V -> A) (df : list (Row N V)) : list A :=
  map f df.

Definition scoring_col (df : Frame) : Series.t :=
  norm (Series.add (col PTS df) (Series.scale 5 (col FG_PCT df))).

Definition playmaking_col (df : Frame) : Series.t :=
  norm (Series.sub (col AST df) (Series.scale 0.5 (col TOV df))).

Definition discipline_col (df : Frame) : Series.t :=
  norm (Series.neg (col TOV df)).

Definition impact_raw_col (df : Frame) : Series.t :=
  Series.add
    (Series.add (Series.scale 0.5 (scoring_col df))
                (Series.scale 0.3 (playmaking_col df)))
    (Series.scale 0.2 (discipline_col df)).

Definition luck_factor_col (df : Frame) : Series.t :=
  norm (impact_raw_col df).

Definition q_low (df : Frame) : option Q := Series.quantile (impact_raw_col df) 0.2.

Definition q_high (df : Frame) : option Q := Series.quantile (impact_raw_col df) 0.8.

Definition tier_col (df : Frame) : list Tier :=
  map (tier_row (q_low df) (q_high df)) (impact_raw_col df).

Definition avg_height_m : Q := 2.0.

Definition avg_weight_kg : Q := 100.0.

(** Row [i] of the final projection: after [reset_index] the frame's
    index is 0 .. n-1 and the columns are aligned on it. *)
Definition out_row (df : Frame) (i : nat) : Processed :=
  {| player_name := nth i (col PLAYER_NAME df) EmptyString;
     height_m := avg_height_m;
     weight_kg := avg_weight_kg;
     scoring := nth i (scoring_col df) 0;
     playmaking := nth i (playmaking_col df) 0;
     discipline := nth i (discipline_col df) 0;
     luck_factor := nth i (luck_factor_col df) 0;
     tier := nth i (tier_col df) role_player |}.

Definition out (df : Frame) : list Processed :=
  map (out_row df) (seq 0 (List.length df)).

(** [dropna] on one row: kept only when no cell is missing. *)
Definition present (r : Row (option string) (option Q)) : option (Row string Q) :=
  match PLAYER_NAME r, PTS r, REB r, AST r, TOV r, FG_PCT r, FG3_PCT r with
  | Some name, Some pts, Some reb, Some ast, Some tov, Some fg, Some fg3 =>
      Some (mkRow name (GP r) pts reb ast tov fg fg3)
  | _, _, _, _, _, _, _ => None
  end.

Fixpoint dropna (df : list (Row (option string) (option Q))) : Frame :=
  match df with
  | [] => []
  | r :: rest =>
      match present r with
      | Some r' => r' :: dropna rest
      | None => dropna rest
      end
  end.

Section Pipeline.

(** pandas' text-to-number parser; [None] when the text is not a number. *)
Variable parse_float : string -> option Q.

(** [pd.to_numeric(_, errors="coerce")] on one cell. *)
Definition to_numeric (c : cell) : option Q :=
  match c with
  | Num q => Some q
  | Str s => parse_float s
  | NaN => None
  end.

(** The loop over the six numeric columns, row by row. *)
Definition coerce (r : Row (option string) cell) : Row (option string) (option Q) :=
  mkRow (PLAYER_NAME r) (GP r)
        (to_numeric (PTS r)) (to_numeric (REB r)) (to_numeric (AST r))
        (to_numeric (TOV r)) (to_numeric (FG_PCT r)) (to_numeric (FG3_PCT r)).

(** Lines 50-59: projection, volume filter, coercion, [dropna]. *)
Definition surviving (fetched : list FetchedRow) : Frame :=
  let df := map cols fetched in
  let df := filter (fun r => (15 <=? GP r)%Z) df in
  let df := map coerce df in
  dropna df.

(** [main] as a function of the fetched table [df]: the raw table is
    written first, then the frame is projected, filtered, coerced and
    extended with the derived columns, and [out] is written. *)
Definition main (df : list FetchedRow) : Files :=
  let raw := df in
  let df := surviving df in
  {| players_raw := raw; players_processed := out df |}.

End Pipeline.

(** ** Properties named by the specification *)





(** One of the six numeric cells of a row is not a number. *)
Definition unparseable (parse_float : string -> option Q)
           (r : Row (option string) cell) : Prop :=
  to_numeric parse_float (PTS r) = None \/
  to_numeric parse_float (REB r) = None \/
  to_numeric parse_float (AST r) = None \/
  to_numeric parse_float (TOV r) = None \/
  to_numeric parse_float (FG_PCT r) = None \/
  to_numeric parse_float (FG3_PCT r) = None.

(** Two fetched rows that differ at most in their REB and FG3_PCT
    cells, which are numbers in both. *)
Definition same_but_reb_fg3 (parse_float : string -> option Q)
           (r1 r2 : FetchedRow) : Prop :=
  PLAYER_NAME (cols r1) = PLAYER_NAME (cols r2) /\
  GP (cols r1) = GP (cols r2) /\
  PTS (cols r1) = PTS (cols r2) /\
  AST (cols r1) = AST (cols r2) /\
  TOV (cols r1) = TOV (cols r2) /\
  FG_PCT (cols r1) = FG_PCT (cols r2) /\
  other r1 = other r2 /\
  to_numeric parse_float (REB (cols r1)) <> None /\
  to_numeric parse_float (REB (cols r2)) <> None /\
  to_numeric parse_float (FG3_PCT (cols r1)) <> None /\
  to_numeric parse_float (FG3_PCT (cols r2)) <> None.

(** Two fetched rows that differ at most in their games-played count,
    on the same side of the volume threshold. *)
Definition same_but_gp (r1 r2 : FetchedRow) : Prop :=
  PLAYER_NAME (cols r1) = PLAYER_NAME (cols r2) /\
  PTS (cols r1) = PTS (cols r2) /\
  REB (cols r1) = REB (cols r2) /\
  AST (cols r1) = AST (cols r2) /\
  TOV (cols r1) = TOV (cols r2) /\
  FG_PCT (cols r1) = FG_PCT (cols r2) /\
  FG3_PCT (cols r1) = FG3_PCT (cols r2) /\
  ((15 <= GP (cols r1))%Z <-> (15 <= GP (cols r2))%Z).

(** ** Sample inputs *)

Module Sample.

Definition digit (c : ascii) : option Z :=
  let n := Z.of_nat (nat_of_ascii c) in
  if ((48 <=? n) && (n <=? 57))%Z then Some (n - 48)%Z else None.

Fixpoint digits (s : string) (num : Z) (den : positive) (frac : bool) : option Q :=
  match s with
  | EmptyString => Some (num # den)
  | String c rest =>
      if Ascii.eqb c "."
      then (if frac then None else digits rest num den true)
      else match digit c with
           | Some d => digits rest (10 * num + d) (if frac then 10 * den else den)%positive frac
           | None => None
           end
  end.

(** A parser for plain decimal texts such as ["27.1"] or ["-3"]; enough
    to run the pipeline on text cells. *)
Definition decimal (s : string) : option Q :=
  match s with
  | EmptyString => None
  | String "-" rest => option_map Qopp (digits rest 0 1 false)
  | _ => digits s 0 1 false
  end.

Definition player (name : string) (gp : Z) (pts reb ast tov fg fg3 : cell) : FetchedRow :=
  mkFetched (mkRow (Some name) gp pts reb ast tov fg fg3)
            [("TEAM_ABBREVIATION"%string, Str "XYZ")].

Definition p10 : FetchedRow :=
  player "Ten" 10 (Num 8) (Num 3) (Num 2) (Num 1) (Num 0.41) (Num 0.30).

Definition p20 : FetchedRow :=
  player "Twenty" 20 (Num 21.5) (Num 7) (Num 6) (Num 3) (Num 0.48) (Num 0.36).

Definition p30 : FetchedRow :=
  player "Thirty" 30 (Num 12) (Str "4.5") (Num 3) (Num 1.5) (Str "0.52") (Num 0.33).

Definition gp_10_20_30 : list FetchedRow := [p10; p20; p30].

(** A row that passes the volume filter but whose FG_PCT is not a number. *)
Definition p_bad : FetchedRow :=
  player "Bad" 40 (Num 9) (Num 2) (Num 1) (Num 1) (Str "n/a") (Num 0.2).

(** A row with five games played. *)
Definition p5 : FetchedRow :=
  player "Five" 5 (Num 30) (Num 9) (Num 9) (Num 2) (Num 0.6) (Num 0.4).

Definition p15 : FetchedRow :=
  player "Fifteen" 15 (Num 5) (Num 2) (Num 1) (Num 0.5) (Num 0.39) (Num 0.28).

Definition p16 : FetchedRow :=
  player "Sixteen" 16 (Num 17) (Num 5) (Num 8) (Num 4) (Num 0.45) (Num 0.38).

Definition p25 : FetchedRow :=
  player "TwentyFive" 25 (Num 26) (Num 11) (Num 4) (Num 2.5) (Num 0.55) (Num 0.31).

Definition five_and_one : list FetchedRow := [p15; p16; p5; p20; p25; p30].

(** [p20] and [p30] with other rebounds and three-point percentages. *)
Definition p20' : FetchedRow :=
  player "Twenty" 20 (Num 21.5) (Str "11") (Num 6) (Num 3) (Num 0.48) (Num 0.1).

Definition p30' : FetchedRow :=
  player "Thirty" 30 (Num 12) (Num 0) (Num 3) (Num 1.5) (Str "0.52") (Str "0.9").

(** [p20] after a full season. *)
Definition p20_82 : FetchedRow :=
  player "Twenty" 82 (Num 21.5) (Num 7) (Num 6) (Num 3) (Num 0.48) (Num 0.36).


End Sample.

(** ** The pipeline in binary64 *)

Module B64.

Local Open Scope float_scope.

(** An integer as a float (exact below 2^53). *)
Definition of_Z (z : Z) : float :=
  if (z <? 0)%Z then - of_uint63 (Uint63.of_Z (- z)) else of_uint63 (Uint63.of_Z z).

Definition of_nat (n : nat) : float := of_Z (Z.of_nat n).

Definition Series := list float.

Definition add (a b : Series) : Series := map (fun ab => fst ab + snd ab) (combine a b).

Definition sub (a b : Series) : Series := map (fun ab => fst ab - snd ab) (combine a b).

Definition scale (c : float) (a : Series) : Series := map (fun v => c * v) a.

Definition neg (a : Series) : Series := map (fun v => - v) a.

Definition sub_scalar (a : Series) (c : float) : Series := map (fun v => v - c) a.

Definition div_scalar (a : Series) (c : float) : Series := map (fun v => v / c) a.

(** The values that are not NaN: reductions skip the others. *)
Definition notna_values (a : Series) : Series := filter (fun v => negb (is_nan v)) a.

Definition fmin (x y : float) : float := if y <? x then y else x.

Definition fmax (x y : float) : float := if x <? y then y else x.

(** [a.min()]: the least value that is not NaN; NaN when there is none. *)
Definition min (a : Series) : float :=
  match notna_values a with
  | [] => nan
  | x :: rest => fold_left fmin rest x
  end.

(** [a.max()]: the greatest value that is not NaN; NaN when there is none. *)
Definition max (a : Series) : float :=
  match notna_values a with
  | [] => nan
  | x :: rest => fold_left fmax rest x
  end.

Fixpoint insert_sorted (x : float) (l : list float) : list float :=
  match l with
  | [] => [x]
  | y :: rest => if x <=? y then x :: l else y :: insert_sorted x rest
  end.

Definition sort_values (a : Series) : Series := fold_right insert_sorted [] a.

(** The greatest index [k <= last] with [k <= virt], for [0 <= virt]. *)
Definition floor_index (virt : float) (last : nat) : nat :=
  List.length (filter (fun k => of_nat k <=? virt) (seq 1 last)).

(** numpy's interpolation between two neighbours. *)
Definition lerp (a b t : float) : float :=
  if 0.5 <=? t then b - (b - a) * (1 - t) else a + (b - a) * t.

(** [a.quantile(q)], linear interpolation: NaN values are left out, the
    level goes through percent and back, the virtual index is
    [(n - 1) * q]; NaN when no value is left. *)
Definition quantile (a : Series) (q : float) : float :=
  match notna_values a with
  | [] => nan
  | values =>
      let sorted := sort_values values in
      let last := (List.length values - 1)%nat in
      let q := (q * 100) / 100 in
      let virt := of_nat last * q in
      let prev := floor_index virt last in
      let next := Nat.min (prev + 1) last in
      let gamma := virt - of_nat prev in
      lerp (nth prev sorted nan) (nth next sorted nan) gamma
  end.

(** [(series - series.min()) / (series.max() - series.min() + 1e-9)]. *)
Definition norm (series : Series) : Series :=
  div_scalar (sub_scalar series (min series)) (max series - min series + 1e-9).

(** A cell of the fetched table: a float (NaN included), an integer, a
    text, or None. *)
Inductive cell : Type :=
| Num (f : float)
| Int (z : Z)
| Str (s : string)
| NA.

(** The fetched table: its column labels and its rows, one cell per
    column. *)
Record DataFrame : Type := mkFrame {
  columns : list string;
  rows : list (list cell)
}.

Inductive error : Type :=
| KeyError (column : string)
| TypeError.

Inductive result (A : Type) : Type :=
| Ok (a : A)
| Raise (e : error).

Arguments Ok {A}.
Arguments Raise {A}.

Definition bind {A B : Type} (r : result A) (k : A -> result B) : result B :=
  match r with
  | Ok a => k a
  | Raise e => Raise e
  end.

Notation "x <- r ;; k" := (bind r (fun x => k))
  (at level 61, r at next level, right associativity).

Fixpoint mapM {A B : Type} (f : A -> result B) (l : list A) : result (list B) :=
  match l with
  | [] => Ok []
  | x :: rest => y <- f x ;; ys <- mapM f rest ;; Ok (y :: ys)
  end.

(** The kept columns of one row; [V] is the type of the six numeric
    columns at one stage. *)
Record Row (V : Type) : Type := mkRow {
  PLAYER_NAME : cell;
  GP : cell;
  PTS : V;
  REB : V;
  AST : V;
  TOV : V;
  FG_PCT : V;
  FG3_PCT : V
}.

Arguments mkRow {V}.
Arguments PLAYER_NAME {V}.
Arguments GP {V}.
Arguments PTS {V}.
Arguments REB {V}.
Arguments AST {V}.
Arguments TOV {V}.
Arguments FG_PCT {V}.
Arguments FG3_PCT {V}.

Definition cols : list string :=
  ["PLAYER_NAME"; "GP"; "PTS"; "REB"; "AST"; "TOV"; "FG_PCT"; "FG3_PCT"]%string.

(** The position of a column label; KeyError when the table has no
    such column. *)
Fixpoint get_loc (name : string) (labels : list string) : result nat :=
  match labels with
  | [] => Raise (KeyError name)
  | c :: rest => if String.eqb c name then Ok 0%nat else i <- get_loc name rest ;; Ok (S i)
  end.

Definition row_of (cs : list cell) : Row cell :=
  mkRow (nth 0 cs NA) (nth 1 cs NA) (nth 2 cs NA) (nth 3 cs NA)
        (nth 4 cs NA) (nth 5 cs NA) (nth 6 cs NA) (nth 7 cs NA).

(** [df[cols]]. *)
Definition select (df : DataFrame) : result (list (Row cell)) :=
  locs <- mapM (fun c => get_loc c (columns df)) cols ;;
  Ok (map (fun r => row_of (map (fun i => nth i r NA) locs)) (rows df)).

(** [cell >= n] on one cell of a column: a missing cell compares false,
    a text cannot be compared with a number. *)
Definition ge (c : cell) (n : Z) : result bool :=
  match c with
  | Num f => Ok (of_Z n <=? f)
  | Int z => Ok (n <=? z)%Z
  | Str _ => Raise TypeError
  | NA => Ok false
  end.

(** [df[df["GP"] >= 15]]: the comparison runs over the whole column
    first. *)
Definition volume_filter (df : list (Row cell)) : result (list (Row cell)) :=
  mask <- mapM (fun r => ge (GP r) 15) df ;;
  Ok (map fst (filter snd (combine df mask))).

Inductive Tier : Type := bust | role_player | star.

Record Processed : Type := mkProcessed {
  player_name : cell;
  height_m : float;
  weight_kg : float;
  scoring : float;
  playmaking : float;
  discipline : float;
  luck_factor : float;
  tier : Tier
}.

(** What the run leaves in data/: the raw table, and the processed
    table unless an error stopped the run before it was written. *)
Record Files : Type := mkFiles {
  players_raw : DataFrame;
  players_processed : result (list Processed)
}.

Definition Frame := list (Row float).

Definition col {V A : Type} (f : Row V -> A) (df : list (Row V)) : list A := map f df.

(** [tier_row], with the two thresholds it closes over and the row's
    impact_raw. *)
Definition tier_row (q_low q_high : float) (impact_raw : float) : Tier :=
  if impact_raw <=? q_low then bust
  else if q_high <=? impact_raw then star
  else role_player.

Definition scoring_col (df : Frame) : Series :=
  norm (add (col PTS df) (scale 5 (col FG_PCT df))).

Definition playmaking_col (df : Frame) : Series :=
  norm (sub (col AST df) (scale 0.5 (col TOV df))).

Definition discipline_col (df : Frame) : Series :=
  norm (neg (col TOV df)).

Definition impact_raw_col (df : Frame) : Series :=
  add (add (scale 0.5 (scoring_col df)) (scale 0.3 (playmaking_col df)))
      (scale 0.2 (discipline_col df)).

Definition luck_factor_col (df : Frame) : Series := norm (impact_raw_col df).

Definition q_low (df : Frame) : float := quantile (impact_raw_col df) 0.2.

Definition q_high (df : Frame) : float := quantile (impact_raw_col df) 0.8.

Definition tier_col (df : Frame) : list Tier :=
  map (tier_row (q_low df) (q_high df)) (impact_raw_col df).

Definition avg_height_m : float := 2.0.

Definition avg_weight_kg : float := 100.0.

Definition out_row (df : Frame) (i : nat) : Processed :=
  {| player_name := nth i (col PLAYER_NAME df) NA;
     height_m := avg_height_m;
     weight_kg := avg_weight_kg;
     scoring := nth i (scoring_col df) nan;
     playmaking := nth i (playmaking_col df) nan;
     discipline := nth i (discipline_col df) nan;
     luck_factor := nth i (luck_factor_col df) nan;
     tier := nth i (tier_col df) role_player |}.

Definition out (df : Frame) : list Processed :=
  map (out_row df) (seq 0 (List.length df)).

Definition notna (c : cell) : bool :=
  match c with
  | Num f => negb (is_nan f)
  | Int _ => true
  | Str _ => true
  | NA => false
  end.

(** [dropna]: a row stays when none of its eight cells is missing. *)
Definition dropna (df : Frame) : Frame :=
  filter (fun r => notna (PLAYER_NAME r) && notna (GP r)
                   && negb (is_nan (PTS r)) && negb (is_nan (REB r))
                   && negb (is_nan (AST r)) && negb (is_nan (TOV r))
                   && negb (is_nan (FG_PCT r)) && negb (is_nan (FG3_PCT r))) df.

Section Pipeline.

(** pandas' text-to-float parser: [None] when the text is not a number;
    the texts it accepts include "inf" and "nan". *)
Variable parse_float : string -> option float.

(** [pd.to_numeric(_, errors="coerce")] on one cell. *)
Definition to_numeric (c : cell) : float :=
  match c with
  | Num f => f
  | Int z => of_Z z
  | Str s => match parse_float s with Some f => f | None => nan end
  | NA => nan
  end.

Definition coerce (r : Row cell) : Row float :=
  mkRow (PLAYER_NAME r) (GP r)
        (to_numeric (PTS r)) (to_numeric (REB r)) (to_numeric (AST r))
        (to_numeric (TOV r)) (to_numeric (FG_PCT r)) (to_numeric (FG3_PCT r)).

(** Lines 50-59. *)
Definition surviving (df : DataFrame) : result Frame :=
  df <- select df ;;
  df <- volume_filter df ;;
  Ok (dropna (map coerce df)).

(** [main] as a function of the fetched table. *)
Definition main (df : DataFrame) : Files :=
  {| players_raw := df;
     players_processed := (df <- surviving df ;; Ok (out df)) |}.

End Pipeline.

(** The closed interval [0,1]; false on NaN. *)
Definition in_unit_interval (x : float) : bool := (0 <=? x) && (x <=? 1).

(** The tier rule as the specification words it, for one batch: every
    row at or below the 20th percentile is a bust, every row at or above
    the 80th percentile is a star, every other row a role player. *)
Definition tier_rule_as_specified (df : Frame) : Prop :=
  forall i v t,
    nth_error (impact_raw_col df) i = Some v ->
    nth_error (tier_col df) i = Some t ->
    ((v <=? quantile (impact_raw_col df) 0.2) = true -> t = bust) /\
    ((quantile (impact_raw_col df) 0.8 <=? v) = true -> t = star) /\
    ((v <=? quantile (impact_raw_col df) 0.2) = false ->
     (quantile (impact_raw_col df) 0.8 <=? v) = false -> t = role_player).

End B64.


(** ** Sample inputs in binary64 *)

Module Sample64.

Local Open Scope float_scope.

(** A parser that knows the text "inf" only. *)
Definition parse (s : string) : option float :=
  if String.eqb s "inf" then Some infinity else None.

Definition labels : list string :=
  (B64.cols ++ ["TEAM_ABBREVIATION"%string])%list.

Definition player (name : string) (gp : Z) (pts reb ast tov fg fg3 : B64.cell) : list B64.cell :=
  [B64.Str name; B64.Int gp; pts; reb; ast; tov; fg; fg3; B64.Str "XYZ"].

Definition stats (name : string) (gp : Z) (pts reb ast tov fg fg3 : float) : list B64.cell :=
  player name gp (B64.Num pts) (B64.Num reb) (B64.Num ast) (B64.Num tov)
         (B64.Num fg) (B64.Num fg3).

(** Three rows whose points span more than the largest float. *)
Definition wide_range : B64.DataFrame :=
  B64.mkFrame labels
    [stats "lo" 20 (-1e308) 1 2 1 0.5 0.3;
     stats "mid" 20 0 1 5 2 0.5 0.3;
     stats "hi" 30 1e308 1 1 3 0.5 0.3].

(** Three rows of non-negative statistics: assists and turnovers so
    large that assists - 0.5 * turnovers spans more than the largest
    float. *)
Definition huge_counts : B64.DataFrame :=
  B64.mkFrame labels
    [stats "passer" 20 10 1 1.5e308 0 0.5 0.3;
     stats "loser" 20 12 1 0 1.5e308 0.5 0.3;
     stats "other" 30 15 1 4 2 0.5 0.3].

(** Two rows, one with the text "inf" for its points. *)
Definition text_inf : B64.DataFrame :=
  B64.mkFrame labels
    [player "x" 20 (B64.Str "inf") (B64.Num 1) (B64.Num 2) (B64.Num 1) (B64.Num 0.5) (B64.Num 0.3);
     stats "y" 20 12 1 5 2 0.5 0.3].

(** A table with a single surviving row. *)
Definition lone : B64.DataFrame :=
  B64.mkFrame labels [stats "Twenty" 20 21.5 7 6 3 0.48 0.36].

(** A table with all columns and no row. *)
Definition no_rows : B64.DataFrame := B64.mkFrame labels [].

(** Five rows with GP 15, 16, 20, 25, 30 and one with GP 5. *)
Definition five_and_one : B64.DataFrame :=
  B64.mkFrame labels
    [stats "Fifteen" 15 5 2 1 0.5 0.39 0.28;
     stats "Sixteen" 16 17 5 8 4 0.45 0.38;
     stats "Five" 5 30 9 9 2 0.6 0.4;
     stats "Twenty" 20 21.5 7 6 3 0.48 0.36;
     stats "TwentyFive" 25 26 11 4 2.5 0.55 0.31;
     stats "Thirty" 30 12 4.5 3 1.5 0.52 0.33].

(** The impact scores of the specification's tier example. *)
Definition one_to_ten : B64.Series := [1; 2; 3; 4; 5; 6; 7; 8; 9; 10].

End Sample64.

(** ** Facts about the series operations *)









Lemma norm_length (a : Series.t) : List.length (norm a) = List.length a.
Proof.
  unfold norm. destruct a as [|x rest]; [reflexivity|]. simpl.
  unfold Series.div_scalar, Series.sub_scalar. now rewrite !length_map.
Qed.


Lemma add_length (a b : Series.t) :
  List.length a = List.length b -> List.length (Series.add a b) = List.length a.
Proof.
  intros H. unfold Series.add. rewrite length_map, length_combine, <- H.
  apply Nat.min_id.
Qed.

Lemma sub_length (a b : Series.t) :
  List.length a = List.length b -> List.length (Series.sub a b) = List.length a.
Proof.
  intros H. unfold Series.sub. rewrite length_map, length_combine, <- H.
  apply Nat.min_id.
Qed.

Lemma scale_length (c : Q) (a : Series.t) :
  List.length (Series.scale c a) = List.length a.
Proof. apply length_map. Qed.

Lemma combine_nth_lt {A B : Type} (l : list A) (l' : list B) (i : nat) (x : A) (y : B) :
  (i < List.length l)%nat -> (i < List.length l')%nat ->
  nth i (combine l l') (x, y) = (nth i l x, nth i l' y).
Proof.
  revert l' i. induction l as [|a l IH]; intros [|b l'] i; simpl; try lia.
  destruct i as [|i]; [reflexivity|]. intros H1 H2. apply IH; lia.
Qed.


Lemma sub_nth (a b : Series.t) (i : nat) :
  (i < List.length a)%nat -> (i < List.length b)%nat ->
  nth i (Series.sub a b) 0 = nth i a 0 - nth i b 0.
Proof.
  intros Ha Hb. unfold Series.sub.
  rewrite (nth_indep _ 0 (fst (0, 0) - snd (0, 0)))
    by (rewrite length_map, length_combine; lia).
  rewrite (map_nth (fun ab => fst ab - snd ab)), combine_nth_lt by assumption.
  reflexivity.
Qed.


Lemma neg_nth (a : Series.t) (i : nat) :
  (i < List.length a)%nat -> nth i (Series.neg a) 0 = - nth i a 0.
Proof.
  intros Ha. unfold Series.neg.
  rewrite (nth_indep _ 0 (- 0)) by (now rewrite length_map).
  apply (map_nth Qopp).
Qed.

(** ** Facts about the frame columns *)

Lemma col_length {N V A : Type} (f : Row N V -> A) (df : list (Row N V)) :
  List.length (col f df) = List.length df.
Proof. apply length_map. Qed.

Lemma scoring_length (df : Frame) : List.length (scoring_col df) = List.length df.
Proof.
  unfold scoring_col. rewrite norm_length, add_length; rewrite ?scale_length, !col_length; reflexivity.
Qed.

Lemma playmaking_length (df : Frame) : List.length (playmaking_col df) = List.length df.
Proof.
  unfold playmaking_col. rewrite norm_length, sub_length; rewrite ?scale_length, !col_length; reflexivity.
Qed.

Lemma discipline_length (df : Frame) : List.length (discipline_col df) = List.length df.
Proof.
  unfold discipline_col, Series.neg. now rewrite norm_length, length_map, col_length.
Qed.

Lemma impact_raw_length (df : Frame) : List.length (impact_raw_col df) = List.length df.
Proof.
  unfold impact_raw_col.
  assert (H : List.length (Series.add (Series.scale 0.5 (scoring_col df))
                                      (Series.scale 0.3 (playmaking_col df)))
              = List.length df).
  { rewrite add_length; rewrite !scale_length, ?scoring_length, ?playmaking_length;
      reflexivity. }
  rewrite add_length; rewrite H, ?scale_length, ?discipline_length; reflexivity.
Qed.

Lemma luck_factor_length (df : Frame) : List.length (luck_factor_col df) = List.length df.
Proof. unfold luck_factor_col. now rewrite norm_length, impact_raw_length. Qed.

Lemma tier_length (df : Frame) : List.length (tier_col df) = List.length df.
Proof. unfold tier_col. now rewrite length_map, impact_raw_length. Qed.

Lemma out_length (df : Frame) : List.length (out df) = List.length df.
Proof. unfold out. now rewrite length_map, length_seq. Qed.

Lemma in_out (df : Frame) (o : Processed) :
  In o (out df) -> exists i, (i < List.length df)%nat /\ o = out_row df i.
Proof.
  unfold out. intros (i & <- & Hi)%in_map_iff.
  apply in_seq in Hi. exists i. split; [lia|reflexivity].
Qed.

Lemma nth_error_out (df : Frame) (i : nat) :
  (i < List.length df)%nat -> nth_error (out df) i = Some (out_row df i).
Proof.
  intros Hi. unfold out.
  rewrite nth_error_map, nth_error_seq.
  apply Nat.ltb_lt in Hi. now rewrite Hi.
Qed.


(** ** Facts about filtering and coercion *)

Lemma dropna_app (a b : list (Row (option string) (option Q))) :
  dropna (a ++ b) = dropna a ++ dropna b.
Proof.
  induction a as [|r a IH]; simpl; [reflexivity|].
  destruct (present r); simpl; now rewrite IH.
Qed.

Lemma in_dropna (df : list (Row (option string) (option Q))) (n : Row string Q) :
  In n (dropna df) -> exists r, In r df /\ present r = Some n.
Proof.
  induction df as [|r df IH]; simpl; [intros []|].
  destruct (present r) as [n'|] eqn:Hp.
  - intros [<-|Hin]; [exists r; auto|].
    destruct (IH Hin) as (r' & Hr' & Hp'). exists r'. auto.
  - intros Hin. destruct (IH Hin) as (r' & Hr' & Hp'). exists r'. auto.
Qed.

Lemma present_name (r : Row (option string) (option Q)) (n : Row string Q) :
  present r = Some n -> PLAYER_NAME r = Some (PLAYER_NAME n).
Proof.
  unfold present.
  destruct (PLAYER_NAME r), (PTS r), (REB r), (AST r), (TOV r), (FG_PCT r),
    (FG3_PCT r); try discriminate.
  now intros [= <-].
Qed.

Lemma present_missing (r : Row (option string) (option Q)) :
  PTS r = None \/ REB r = None \/ AST r = None \/ TOV r = None \/
  FG_PCT r = None \/ FG3_PCT r = None ->
  present r = None.
Proof.
  unfold present. intros H.
  destruct (PLAYER_NAME r); [|reflexivity].
  destruct (PTS r), (REB r), (AST r), (TOV r), (FG_PCT r), (FG3_PCT r);
    try reflexivity.
  destruct H as [H|[H|[H|[H|[H|H]]]]]; discriminate H.
Qed.

Section PipelineFacts.

Variable parse_float : string -> option Q.

Lemma surviving_app (t1 t2 : list FetchedRow) :
  surviving parse_float (t1 ++ t2)
  = surviving parse_float t1 ++ surviving parse_float t2.
Proof.
  unfold surviving. now rewrite map_app, filter_app, map_app, dropna_app.
Qed.

Lemma surviving_low_gp (r : FetchedRow) :
  (GP (cols r) < 15)%Z -> surviving parse_float [r] = [].
Proof.
  intros H. unfold surviving. simpl.
  destruct (15 <=? GP (cols r))%Z eqn:E; [apply Z.leb_le in E; lia|reflexivity].
Qed.

Lemma surviving_unparseable (r : FetchedRow) :
  unparseable parse_float (cols r) -> surviving parse_float [r] = [].
Proof.
  intros H. unfold surviving. simpl.
  destruct (15 <=? GP (cols r))%Z; [|reflexivity]. simpl.
  rewrite present_missing; [reflexivity|exact H].
Qed.

Lemma surviving_without (t1 t2 : list FetchedRow) (r : FetchedRow) :
  surviving parse_float [r] = [] ->
  surviving parse_float (t1 ++ r :: t2) = surviving parse_float (t1 ++ t2).
Proof.
  intros H. change (r :: t2) with ([r] ++ t2).
  now rewrite !surviving_app, H.
Qed.

Lemma in_surviving (t : list FetchedRow) (n : Row string Q) :
  In n (surviving parse_float t) ->
  exists r, In r t /\ (15 <= GP (cols r))%Z /\
            present (coerce parse_float (cols r)) = Some n.
Proof.
  unfold surviving. intros (c & Hc & Hp)%in_dropna.
  apply in_map_iff in Hc as (p & <- & Hf).
  apply filter_In in Hf as (Hin & Hgp).
  apply in_map_iff in Hin as (r & <- & Hr).
  exists r. repeat split; [exact Hr|now apply Z.leb_le|exact Hp].
Qed.

End PipelineFacts.







(** ** Properties of the pipeline *)





(** C6: a fetched row contributes to the processed output only if its
    games-played value is at least 15: every processed row comes from a
    fetched row with GP >= 15, a row with GP < 15 leaves the processed
    table as it is without that row, and of three otherwise valid rows
    with GP 10, 20 and 30 exactly the last two survive. *)
Theorem volume_filter (parse_float : string -> option Q)
        (fetched : list FetchedRow) :
  (forall o, In o (players_processed (main parse_float fetched)) ->
     exists r n, In r fetched /\ (15 <= GP (cols r))%Z /\
                 present (coerce parse_float (cols r)) = Some n /\
                 PLAYER_NAME n = player_name o) /\
  (forall t1 r t2, fetched = t1 ++ r :: t2 -> (GP (cols r) < 15)%Z ->
     players_processed (main parse_float fetched) = players_processed (main parse_float (t1 ++ t2))) /\
  (forall r10 r20 r30 n20 n30, fetched = [r10; r20; r30] ->
     GP (cols r10) = 10%Z -> GP (cols r20) = 20%Z -> GP (cols r30) = 30%Z ->
     present (coerce parse_float (cols r20)) = Some n20 ->
     present (coerce parse_float (cols r30)) = Some n30 ->
     surviving parse_float fetched = [n20; n30]).
Proof.
  split; [|split].
  - simpl. intros o (i & Hi & ->)%in_out. simpl.
    destruct (nth_error (surviving parse_float fetched) i) as [n|] eqn:Hn;
      [|apply nth_error_None in Hn; lia].
    destruct (in_surviving parse_float fetched n) as (r & Hr & Hgp & Hp).
    { eapply nth_error_In, Hn. }
    exists r, n. repeat split; try assumption.
    symmetry. apply nth_error_nth. unfold col. now rewrite nth_error_map, Hn.
  - intros t1 r t2 -> Hgp. simpl. f_equal.
    apply surviving_without, surviving_low_gp, Hgp.
  - intros r10 r20 r30 n20 n30 -> H10 H20 H30 Hp20 Hp30.
    unfold surviving. simpl. rewrite H10, H20, H30. simpl.
    now rewrite Hp20, Hp30.
Qed.

(** The rows with 10, 20 and 30 games: the last two survive. *)
Lemma volume_filter_witness :
  surviving Sample.decimal Sample.gp_10_20_30
  = [mkRow "Twenty"%string 20%Z 21.5 7 6 3 0.48 0.36;
     mkRow "Thirty"%string 30%Z 12 4.5 3 1.5 0.52 0.33].
Proof.
  apply (proj2 (proj2 (volume_filter Sample.decimal Sample.gp_10_20_30))
           Sample.p10 Sample.p20 Sample.p30); reflexivity.
Defined.

(** C7: a fetched row that passes the volume filter and has one of its
    six numeric cells unparseable is dropped whole: the processed table
    is the one computed without that row. *)
Theorem unparseable_row_is_dropped (parse_float : string -> option Q)
        (t1 t2 : list FetchedRow) (r : FetchedRow) :
  (15 <= GP (cols r))%Z ->
  unparseable parse_float (cols r) ->
  players_processed (main parse_float (t1 ++ r :: t2)) = players_processed (main parse_float (t1 ++ t2)).
Proof.
  intros _ Hbad. simpl. f_equal.
  apply surviving_without, surviving_unparseable, Hbad.
Qed.

(** A row with 40 games whose FG_PCT reads "n/a". *)
Lemma unparseable_row_is_dropped_witness :
  players_processed (main Sample.decimal ([Sample.p20] ++ Sample.p_bad :: [Sample.p30]))
  = players_processed (main Sample.decimal ([Sample.p20] ++ [Sample.p30])).
Proof.
  apply (unparseable_row_is_dropped Sample.decimal).
  - discriminate.
  - right; right; right; right; left. reflexivity.
Defined.

(** C9: the raw table is written as fetched, rows that the filter or
    the coercion later removes included, and those rows leave no trace in
    the processed table. *)
Theorem raw_table_unchanged (parse_float : string -> option Q)
        (fetched : list FetchedRow) :
  players_raw (main parse_float fetched) = fetched /\
  (forall t1 r t2, fetched = t1 ++ r :: t2 ->
     (GP (cols r) < 15)%Z \/ unparseable parse_float (cols r) ->
     In r (players_raw (main parse_float fetched)) /\
     players_processed (main parse_float fetched) = players_processed (main parse_float (t1 ++ t2))).
Proof.
  split; [reflexivity|].
  intros t1 r t2 -> Hdrop. split.
  - simpl. apply in_elt.
  - simpl. f_equal. apply surviving_without.
    destruct Hdrop as [Hgp|Hbad];
      [now apply surviving_low_gp|now apply surviving_unparseable].
Qed.

(** Five rows with GP 15, 16, 20, 25, 30 and one with GP 5. *)
Lemma raw_table_unchanged_witness :
  In Sample.p5 (players_raw (main Sample.decimal Sample.five_and_one)) /\
  players_processed (main Sample.decimal Sample.five_and_one)
  = players_processed (main Sample.decimal
           ([Sample.p15; Sample.p16] ++ [Sample.p20; Sample.p25; Sample.p30])).
Proof.
  apply (proj2 (raw_table_unchanged Sample.decimal Sample.five_and_one)
           [Sample.p15; Sample.p16] Sample.p5
           [Sample.p20; Sample.p25; Sample.p30]).
  - reflexivity.
  - left. reflexivity.
Defined.

Lemma out_columns (d1 d2 : Frame) :
  col PLAYER_NAME d1 = col PLAYER_NAME d2 ->
  col PTS d1 = col PTS d2 ->
  col AST d1 = col AST d2 ->
  col TOV d1 = col TOV d2 ->
  col FG_PCT d1 = col FG_PCT d2 ->
  out d1 = out d2.
Proof.
  intros Hname Hpts Hast Htov Hfg.
  assert (Hlen : List.length d1 = List.length d2).
  { rewrite <- (col_length PLAYER_NAME d1), Hname. apply col_length. }
  unfold out. rewrite Hlen. apply map_ext. intros i.
  unfold out_row, tier_col, q_low, q_high, luck_factor_col, impact_raw_col,
    scoring_col, playmaking_col, discipline_col.
  now rewrite Hname, Hpts, Hast, Htov, Hfg.
Qed.

Lemma surviving_row_agree (parse_float : string -> option Q) (r1 r2 : FetchedRow) :
  same_but_reb_fg3 parse_float r1 r2 ->
  col PLAYER_NAME (surviving parse_float [r1]) = col PLAYER_NAME (surviving parse_float [r2]) /\
  col PTS (surviving parse_float [r1]) = col PTS (surviving parse_float [r2]) /\
  col AST (surviving parse_float [r1]) = col AST (surviving parse_float [r2]) /\
  col TOV (surviving parse_float [r1]) = col TOV (surviving parse_float [r2]) /\
  col FG_PCT (surviving parse_float [r1]) = col FG_PCT (surviving parse_float [r2]).
Proof.
  destruct r1 as [[n1 g1 p1 rb1 a1 t1 f1 f31] o1].
  destruct r2 as [[n2 g2 p2 rb2 a2 t2 f2 f32] o2].
  unfold same_but_reb_fg3. simpl.
  intros (-> & -> & -> & -> & -> & -> & _ & Hrb1 & Hrb2 & Hf1 & Hf2).
  unfold surviving. simpl.
  destruct (15 <=? g2)%Z; simpl; [|auto].
  unfold present, coerce. simpl.
  destruct n2; [|simpl; auto].
  destruct (to_numeric parse_float p2); [|simpl; auto].
  destruct (to_numeric parse_float rb1); [|congruence].
  destruct (to_numeric parse_float rb2); [|congruence].
  destruct (to_numeric parse_float a2); [|simpl; auto].
  destruct (to_numeric parse_float t2); [|simpl; auto].
  destruct (to_numeric parse_float f2); [|simpl; auto].
  destruct (to_numeric parse_float f31); [|congruence].
  destruct (to_numeric parse_float f32); [|congruence].
  simpl. auto.
Qed.

Lemma surviving_agree (parse_float : string -> option Q) (t1 t2 : list FetchedRow) :
  Forall2 (same_but_reb_fg3 parse_float) t1 t2 ->
  col PLAYER_NAME (surviving parse_float t1) = col PLAYER_NAME (surviving parse_float t2) /\
  col PTS (surviving parse_float t1) = col PTS (surviving parse_float t2) /\
  col AST (surviving parse_float t1) = col AST (surviving parse_float t2) /\
  col TOV (surviving parse_float t1) = col TOV (surviving parse_float t2) /\
  col FG_PCT (surviving parse_float t1) = col FG_PCT (surviving parse_float t2).
Proof.
  induction 1 as [|r1 r2 t1 t2 Hr _ IH]; [auto|].
  change (r1 :: t1) with ([r1] ++ t1). change (r2 :: t2) with ([r2] ++ t2).
  rewrite !surviving_app. unfold col in *. rewrite !map_app.
  destruct (surviving_row_agree parse_float r1 r2 Hr) as (H1 & H2 & H3 & H4 & H5).
  destruct IH as (I1 & I2 & I3 & I4 & I5). unfold col in *.
  rewrite H1, H2, H3, H4, H5, I1, I2, I3, I4, I5. auto.
Qed.

(** C10: two fetched tables that differ only in the REB and FG3_PCT
    cells of their rows, where those cells are numbers in both, give the
    same processed table. *)
Theorem rebounds_and_threes_do_not_matter (parse_float : string -> option Q)
        (t1 t2 : list FetchedRow) :
  Forall2 (same_but_reb_fg3 parse_float) t1 t2 ->
  players_processed (main parse_float t1) = players_processed (main parse_float t2).
Proof.
  intros H. simpl.
  destruct (surviving_agree parse_float t1 t2 H) as (H1 & H2 & H3 & H4 & H5).
  now apply out_columns.
Qed.

(** The three-row sample against the same rows with other rebounds and
    three-point percentages. *)
Lemma rebounds_and_threes_do_not_matter_witness :
  players_processed (main Sample.decimal [Sample.p10; Sample.p20; Sample.p30])
  = players_processed (main Sample.decimal [Sample.p10; Sample.p20'; Sample.p30']).
Proof.
  apply (rebounds_and_threes_do_not_matter Sample.decimal).
  repeat constructor; discriminate.
Defined.

(** ** Further properties of the filter and the final projection *)

Lemma out_names (df : Frame) : map player_name (out df) = col PLAYER_NAME df.
Proof.
  apply (nth_ext _ _ EmptyString EmptyString).
  - now rewrite length_map, out_length, col_length.
  - intros i Hi. rewrite length_map, out_length in Hi.
    rewrite (nth_indep _ EmptyString (player_name (out_row df 0)))
      by (now rewrite length_map, out_length).
    rewrite (map_nth player_name).
    rewrite (nth_error_nth _ _ (out_row df 0) (nth_error_out df i Hi)).
    reflexivity.
Qed.







Lemma dropna_length (df : list (Row (option string) (option Q))) :
  (List.length (dropna df) <= List.length df)%nat.
Proof.
  induction df as [|r df IH]; simpl; [lia|].
  destruct (present r); simpl; lia.
Qed.

(** X9: the processed table has one row per surviving row, in the
    survivors' order and with their names, never more rows than were
    fetched, and every row carries height 2.0 and weight 100.0. *)
Theorem processed_table_shape
        (parse_float : string -> option Q) (fetched : list FetchedRow) :
  map player_name (players_processed (main parse_float fetched))
  = map PLAYER_NAME (surviving parse_float fetched) /\
  (List.length (players_processed (main parse_float fetched))
   <= List.length fetched)%nat /\
  Forall (fun o => height_m o = 2.0 /\ weight_kg o = 100.0)
         (players_processed (main parse_float fetched)).
Proof.
  simpl. split; [apply out_names|]. split.
  - rewrite out_length. unfold surviving.
    eapply Nat.le_trans; [apply dropna_length|].
    rewrite length_map.
    eapply Nat.le_trans; [apply filter_length_le|].
    now rewrite length_map.
  - apply Forall_forall. intros o (i & _ & ->)%in_out. split; reflexivity.
Qed.

Lemma surviving_row_agree_gp (parse_float : string -> option Q) (r1 r2 : FetchedRow) :
  same_but_gp r1 r2 ->
  col PLAYER_NAME (surviving parse_float [r1]) = col PLAYER_NAME (surviving parse_float [r2]) /\
  col PTS (surviving parse_float [r1]) = col PTS (surviving parse_float [r2]) /\
  col AST (surviving parse_float [r1]) = col AST (surviving parse_float [r2]) /\
  col TOV (surviving parse_float [r1]) = col TOV (surviving parse_float [r2]) /\
  col FG_PCT (surviving parse_float [r1]) = col FG_PCT (surviving parse_float [r2]).
Proof.
  destruct r1 as [[n1 g1 p1 rb1 a1 t1 f1 f31] o1].
  destruct r2 as [[n2 g2 p2 rb2 a2 t2 f2 f32] o2].
  unfold same_but_gp. simpl.
  intros (-> & -> & -> & -> & -> & -> & -> & Hgp).
  unfold surviving. simpl.
  assert (E : (15 <=? g1)%Z = (15 <=? g2)%Z).
  { destruct (15 <=? g1)%Z eqn:E1, (15 <=? g2)%Z eqn:E2; try reflexivity.
    - apply Z.leb_le in E1. apply Hgp in E1. apply Z.leb_le in E1. congruence.
    - apply Z.leb_le in E2. apply Hgp in E2. apply Z.leb_le in E2. congruence. }
  rewrite E. destruct (15 <=? g2)%Z; simpl; [|auto].
  unfold present, coerce. simpl.
  destruct n2, (to_numeric parse_float p2), (to_numeric parse_float rb2),
    (to_numeric parse_float a2), (to_numeric parse_float t2),
    (to_numeric parse_float f2), (to_numeric parse_float f32); simpl; auto.
Qed.

Lemma surviving_agree_gp (parse_float : string -> option Q) (t1 t2 : list FetchedRow) :
  Forall2 same_but_gp t1 t2 ->
  col PLAYER_NAME (surviving parse_float t1) = col PLAYER_NAME (surviving parse_float t2) /\
  col PTS (surviving parse_float t1) = col PTS (surviving parse_float t2) /\
  col AST (surviving parse_float t1) = col AST (surviving parse_float t2) /\
  col TOV (surviving parse_float t1) = col TOV (surviving parse_float t2) /\
  col FG_PCT (surviving parse_float t1) = col FG_PCT (surviving parse_float t2).
Proof.
  induction 1 as [|r1 r2 t1 t2 Hr _ IH]; [auto|].
  change (r1 :: t1) with ([r1] ++ t1). change (r2 :: t2) with ([r2] ++ t2).
  rewrite !surviving_app. unfold col in *. rewrite !map_app.
  destruct (surviving_row_agree_gp parse_float r1 r2 Hr) as (H1 & H2 & H3 & H4 & H5).
  destruct IH as (I1 & I2 & I3 & I4 & I5). unfold col in *.
  rewrite H1, H2, H3, H4, H5, I1, I2, I3, I4, I5. auto.
Qed.

(** X10: games played decides only whether a row passes the volume
    filter: two fetched tables whose rows differ only in games played,
    each pair on the same side of 15, give the same processed table. *)
Theorem games_played_only_filters
        (parse_float : string -> option Q) (t1 t2 : list FetchedRow) :
  Forall2 same_but_gp t1 t2 ->
  players_processed (main parse_float t1) = players_processed (main parse_float t2).
Proof.
  intros H. simpl.
  destruct (surviving_agree_gp parse_float t1 t2 H) as (H1 & H2 & H3 & H4 & H5).
  now apply out_columns.
Qed.

Lemma games_played_only_filters_witness :
  players_processed (main Sample.decimal [Sample.p10; Sample.p20; Sample.p30])
  = players_processed (main Sample.decimal [Sample.p10; Sample.p20_82; Sample.p30]).
Proof.
  apply (games_played_only_filters Sample.decimal).
  repeat constructor; simpl; intros; lia.
Defined.


(** ** The pipeline in binary64: facts about the columns *)

Lemma b64_add_length (a b : B64.Series) :
  List.length a = List.length b -> List.length (B64.add a b) = List.length a.
Proof.
  intros H. unfold B64.add. rewrite length_map, length_combine, <- H.
  apply Nat.min_id.
Qed.

Lemma b64_sub_length (a b : B64.Series) :
  List.length a = List.length b -> List.length (B64.sub a b) = List.length a.
Proof.
  intros H. unfold B64.sub. rewrite length_map, length_combine, <- H.
  apply Nat.min_id.
Qed.

Lemma b64_norm_length (a : B64.Series) : List.length (B64.norm a) = List.length a.
Proof.
  unfold B64.norm, B64.div_scalar, B64.sub_scalar. now rewrite !length_map.
Qed.

Lemma b64_scoring_length (df : B64.Frame) :
  List.length (B64.scoring_col df) = List.length df.
Proof.
  unfold B64.scoring_col, B64.col, B64.scale.
  rewrite b64_norm_length, b64_add_length; now rewrite !length_map.
Qed.

Lemma b64_playmaking_length (df : B64.Frame) :
  List.length (B64.playmaking_col df) = List.length df.
Proof.
  unfold B64.playmaking_col, B64.col, B64.scale.
  rewrite b64_norm_length, b64_sub_length; now rewrite !length_map.
Qed.

Lemma b64_discipline_length (df : B64.Frame) :
  List.length (B64.discipline_col df) = List.length df.
Proof.
  unfold B64.discipline_col, B64.col, B64.neg.
  now rewrite b64_norm_length, !length_map.
Qed.

Lemma b64_impact_raw_length (df : B64.Frame) :
  List.length (B64.impact_raw_col df) = List.length df.
Proof.
  unfold B64.impact_raw_col.
  assert (H : List.length (B64.add (B64.scale 0.5 (B64.scoring_col df))
                                   (B64.scale 0.3 (B64.playmaking_col df)))
              = List.length df).
  { unfold B64.scale. rewrite b64_add_length;
      rewrite !length_map, ?b64_scoring_length, ?b64_playmaking_length; reflexivity. }
  unfold B64.scale in *.
  rewrite b64_add_length; rewrite H, ?length_map, ?b64_discipline_length; reflexivity.
Qed.

Lemma b64_nth_error_out (df : B64.Frame) (i : nat) (o : B64.Processed) :
  nth_error (B64.out df) i = Some o ->
  (i < List.length df)%nat /\ o = B64.out_row df i.
Proof.
  unfold B64.out. intros H.
  assert (Hi : (i < List.length df)%nat).
  { assert (Hs : nth_error (map (B64.out_row df) (seq 0 (List.length df))) i <> None)
      by congruence.
    apply nth_error_Some in Hs. now rewrite length_map, length_seq in Hs. }
  split; [exact Hi|].
  rewrite nth_error_map, nth_error_seq in H.
  apply Nat.ltb_lt in Hi. rewrite Hi in H. simpl in H. congruence.
Qed.

Lemma b64_tier_of_out_row (df : B64.Frame) (i : nat) :
  (i < List.length df)%nat ->
  exists v, nth_error (B64.impact_raw_col df) i = Some v /\
            B64.tier (B64.out_row df i)
            = B64.tier_row (B64.quantile (B64.impact_raw_col df) 0.2)
                           (B64.quantile (B64.impact_raw_col df) 0.8) v.
Proof.
  intros Hi. rewrite <- b64_impact_raw_length in Hi.
  destruct (nth_error (B64.impact_raw_col df) i) as [v|] eqn:Hv;
    [|apply nth_error_None in Hv; lia].
  exists v. split; [reflexivity|].
  simpl. unfold B64.tier_col, B64.q_low, B64.q_high.
  apply nth_error_nth. now rewrite nth_error_map, Hv.
Qed.

Lemma b64_main_processed (parse_float : string -> option float)
      (fetched : B64.DataFrame) (df : B64.Frame) :
  B64.surviving parse_float fetched = B64.Ok df ->
  B64.players_processed (B64.main parse_float fetched) = B64.Ok (B64.out df).
Proof. intros H. simpl. now rewrite H. Qed.

(** ** The pipeline in binary64: properties *)

(** C2 as the specification words it fails on a batch of one row: the
    row's impact_raw is both percentiles, so it is at or above the 80th
    percentile, and its tier is bust. *)
Lemma tier_rule_as_specified_fails_on_lone_row :
  exists df, B64.surviving Sample64.parse Sample64.lone = B64.Ok df /\
             ~ B64.tier_rule_as_specified df.
Proof.
  eexists. split; [vm_compute; reflexivity|].
  intros H.
  destruct (H 0%nat _ B64.bust eq_refl eq_refl) as (_ & Hstar & _).
  assert (Habs : B64.bust = B64.star) by (apply Hstar; vm_compute; reflexivity).
  discriminate Habs.
Qed.

(** C2, amended: with q20 and q80 the 20th and 80th linear-interpolation
    percentiles of the batch's impact_raw, a processed row is a bust
    exactly when impact_raw <= q20 holds, a star exactly when that does
    not hold and impact_raw >= q80 holds, and a role player in every
    remaining case (neither comparison holds, as for a NaN impact_raw);
    so every row has exactly one tier. *)
Theorem tier_by_batch_percentiles
        (parse_float : string -> option float)
        (fetched : B64.DataFrame) (df : B64.Frame) (i : nat) (o : B64.Processed) :
  B64.surviving parse_float fetched = B64.Ok df ->
  nth_error (B64.out df) i = Some o ->
  B64.players_processed (B64.main parse_float fetched) = B64.Ok (B64.out df) /\
  exists v,
    nth_error (B64.impact_raw_col df) i = Some v /\
    (B64.tier o = B64.bust <->
     (v <=? B64.quantile (B64.impact_raw_col df) 0.2)%float = true) /\
    (B64.tier o = B64.star <->
     (v <=? B64.quantile (B64.impact_raw_col df) 0.2)%float = false /\
     (B64.quantile (B64.impact_raw_col df) 0.8 <=? v)%float = true) /\
    (B64.tier o = B64.role_player <->
     (v <=? B64.quantile (B64.impact_raw_col df) 0.2)%float = false /\
     (B64.quantile (B64.impact_raw_col df) 0.8 <=? v)%float = false).
Proof.
  intros Hs (Hi & ->)%b64_nth_error_out.
  split; [now apply b64_main_processed|].
  destruct (b64_tier_of_out_row df i Hi) as (v & Hv & Ht).
  exists v. split; [exact Hv|]. rewrite Ht. unfold B64.tier_row.
  destruct (v <=? B64.quantile (B64.impact_raw_col df) 0.2)%float;
    destruct (B64.quantile (B64.impact_raw_col df) 0.8 <=? v)%float;
    repeat split; intros; try discriminate; try reflexivity;
    try (destruct H; discriminate).
Qed.

(** The third row of [Sample64.wide_range]: its impact_raw is NaN and
    it is a role player. *)
Lemma tier_by_batch_percentiles_witness :
  exists df o,
    B64.surviving Sample64.parse Sample64.wide_range = B64.Ok df /\
    nth_error (B64.out df) 2 = Some o /\
    B64.tier o = B64.role_player /\
    exists v,
      nth_error (B64.impact_raw_col df) 2 = Some v /\
      (B64.tier o = B64.bust <->
       (v <=? B64.quantile (B64.impact_raw_col df) 0.2)%float = true) /\
      (B64.tier o = B64.star <->
       (v <=? B64.quantile (B64.impact_raw_col df) 0.2)%float = false /\
       (B64.quantile (B64.impact_raw_col df) 0.8 <=? v)%float = true) /\
      (B64.tier o = B64.role_player <->
       (v <=? B64.quantile (B64.impact_raw_col df) 0.2)%float = false /\
       (B64.quantile (B64.impact_raw_col df) 0.8 <=? v)%float = false).
Proof.
  eexists. eexists.
  split; [vm_compute; reflexivity|].
  split; [vm_compute; reflexivity|].
  split; [vm_compute; reflexivity|].
  apply (proj2 (tier_by_batch_percentiles Sample64.parse Sample64.wide_range _ 2 _
                  ltac:(vm_compute; reflexivity) ltac:(vm_compute; reflexivity))).
Defined.

Lemma get_loc_In (name : string) (labels : list string) :
  In name labels -> exists i, B64.get_loc name labels = B64.Ok i.
Proof.
  induction labels as [|c labels IH]; simpl; [intros []|].
  intros H. destruct (String.eqb c name) eqn:E; [eauto|].
  destruct H as [->|H]; [rewrite String.eqb_refl in E; discriminate|].
  destruct (IH H) as (i & ->). simpl. eauto.
Qed.

Lemma get_loc_missing (name : string) (labels : list string) :
  ~ In name labels -> B64.get_loc name labels = B64.Raise (B64.KeyError name).
Proof.
  induction labels as [|c labels IH]; simpl; [reflexivity|].
  intros H. destruct (String.eqb c name) eqn:E.
  - apply String.eqb_eq in E. subst. exfalso. apply H. now left.
  - rewrite IH; [reflexivity|]. intros Hin. apply H. now right.
Qed.

Lemma mapM_get_loc_ok (labels names : list string) :
  (forall c, In c names -> In c labels) ->
  exists locs, B64.mapM (fun c => B64.get_loc c labels) names = B64.Ok locs.
Proof.
  induction names as [|c names IH]; intros H; simpl; [eauto|].
  destruct (get_loc_In c labels) as (i & ->); [apply H; now left|].
  destruct IH as (locs & ->); [intros c' Hc'; apply H; now right|].
  simpl. eauto.
Qed.

Lemma mapM_get_loc_missing (labels names : list string) :
  (exists c, In c names /\ ~ In c labels) ->
  exists c, In c names /\ ~ In c labels /\
            B64.mapM (fun c => B64.get_loc c labels) names
            = B64.Raise (B64.KeyError c).
Proof.
  induction names as [|c names IH]; intros (c0 & Hin & Hmiss); [destruct Hin|].
  simpl. destruct (in_dec string_dec c labels) as [Hc|Hc].
  - destruct (get_loc_In c labels Hc) as (i & ->). simpl.
    destruct IH as (c1 & H1 & H2 & ->).
    { destruct Hin as [->|Hin]; [contradiction|eauto]. }
    exists c1. split; [now right|]. split; [exact H2|reflexivity].
  - rewrite (get_loc_missing c labels Hc). simpl.
    exists c. split; [now left|]. split; [exact Hc|reflexivity].
Qed.

(** C8: a fetched table with the eight columns and zero rows is a valid
    input: the run completes, the raw table is written as fetched and
    the processed table is written with zero rows.  On the way every
    reduction of an empty column is NaN and no row is classified. *)
Theorem main_on_zero_rows (parse_float : string -> option float)
        (labels : list string) :
  (forall c, In c B64.cols -> In c labels) ->
  B64.main parse_float (B64.mkFrame labels [])
  = B64.mkFiles (B64.mkFrame labels []) (B64.Ok []) /\
  B64.surviving parse_float (B64.mkFrame labels []) = B64.Ok [] /\
  B64.norm [] = [] /\
  is_nan (B64.min []) = true /\ is_nan (B64.max []) = true /\
  is_nan (B64.q_low []) = true /\ is_nan (B64.q_high []) = true /\
  B64.tier_col [] = [].
Proof.
  intros H.
  assert (Hs : B64.surviving parse_float (B64.mkFrame labels []) = B64.Ok []).
  { unfold B64.surviving, B64.select. simpl B64.columns. simpl B64.rows.
    destruct (mapM_get_loc_ok labels B64.cols H) as (locs & ->). reflexivity. }
  split.
  - unfold B64.main. now rewrite Hs.
  - split; [exact Hs|]. repeat split.
Qed.

(** The eight columns and one more, no row. *)
Lemma main_on_zero_rows_witness :
  B64.main Sample64.parse Sample64.no_rows
  = B64.mkFiles Sample64.no_rows (B64.Ok []) /\
  B64.surviving Sample64.parse Sample64.no_rows = B64.Ok [] /\
  B64.norm [] = [] /\
  is_nan (B64.min []) = true /\ is_nan (B64.max []) = true /\
  is_nan (B64.q_low []) = true /\ is_nan (B64.q_high []) = true /\
  B64.tier_col [] = [].
Proof.
  apply (main_on_zero_rows Sample64.parse Sample64.labels).
  intros c Hc. unfold Sample64.labels. apply in_or_app. now left.
Defined.

(** C1: the bound fails in the code.  On three rows whose points are
    -1e308, 0 and 1e308 the range max - min overflows to infinity and the
    third row's scoring and luck_factor are NaN; on three rows of
    non-negative statistics with huge assists and turnovers the first
    row's playmaking is NaN; a points cell with the text "inf" is parsed,
    kept, and gives NaN scoring.  None of these lies in [0,1]. *)
Theorem attributes_outside_unit_interval :
  (exists rows o,
     B64.players_processed (B64.main Sample64.parse Sample64.wide_range) = B64.Ok rows /\
     nth_error rows 2 = Some o /\
     is_nan (B64.scoring o) = true /\ is_nan (B64.luck_factor o) = true /\
     B64.in_unit_interval (B64.scoring o) = false /\
     B64.in_unit_interval (B64.luck_factor o) = false) /\
  (exists rows o,
     B64.players_processed (B64.main Sample64.parse Sample64.huge_counts) = B64.Ok rows /\
     nth_error rows 0 = Some o /\
     is_nan (B64.playmaking o) = true /\
     B64.in_unit_interval (B64.playmaking o) = false) /\
  (exists rows o,
     B64.players_processed (B64.main Sample64.parse Sample64.text_inf) = B64.Ok rows /\
     nth_error rows 0 = Some o /\
     is_nan (B64.scoring o) = true /\
     B64.in_unit_interval (B64.scoring o) = false).
Proof.
  repeat split; eexists; eexists;
    (split; [vm_compute; reflexivity|]);
    (split; [vm_compute; reflexivity|]);
    repeat split; vm_compute; reflexivity.
Qed.

(** C5: the range fails in the code.  On the three rows whose points
    are -1e308, 0 and 1e308 the third row's impact_raw is
    0.5 * scoring + 0.3 * playmaking + 0.2 * discipline of that row, and
    it is NaN, not a value in [0,1]. *)
Theorem impact_raw_outside_unit_interval :
  exists df o v,
    B64.surviving Sample64.parse Sample64.wide_range = B64.Ok df /\
    nth_error (B64.out df) 2 = Some o /\
    nth_error (B64.impact_raw_col df) 2 = Some v /\
    v = (0.5 * B64.scoring o + 0.3 * B64.playmaking o + 0.2 * B64.discipline o)%float /\
    is_nan v = true /\
    B64.in_unit_interval v = false.
Proof.
  eexists. eexists. eexists.
  split; [vm_compute; reflexivity|].
  split; [vm_compute; reflexivity|].
  split; [vm_compute; reflexivity|].
  repeat split; vm_compute; reflexivity.
Qed.

(** ** The pipeline in binary64: errors and further properties *)

Lemma b64_nth_error_add (a b : B64.Series) (i : nat) (x y : float) :
  nth_error a i = Some x -> nth_error b i = Some y ->
  nth_error (B64.add a b) i = Some (x + y)%float.
Proof.
  revert b i. induction a as [|a0 a IH]; intros [|b0 b] [|i]; simpl;
    try discriminate.
  - intros [= ->] [= ->]. reflexivity.
  - apply IH.
Qed.

Lemma b64_nth_error_scale (c : float) (a : B64.Series) (i : nat) (x : float) :
  nth_error a i = Some x -> nth_error (B64.scale c a) i = Some (c * x)%float.
Proof.
  intros H. unfold B64.scale. now rewrite nth_error_map, H.
Qed.

(** X13: in binary64, for every processed row the impact_raw entry of
    its batch is 0.5 * scoring + 0.3 * playmaking + 0.2 * discipline of
    that row, added from left to right, with no further normalisation. *)
Theorem impact_raw_formula_binary64
        (parse_float : string -> option float)
        (fetched : B64.DataFrame) (df : B64.Frame) (i : nat) (o : B64.Processed) :
  B64.surviving parse_float fetched = B64.Ok df ->
  nth_error (B64.out df) i = Some o ->
  nth_error (B64.impact_raw_col df) i
  = Some (0.5 * B64.scoring o + 0.3 * B64.playmaking o + 0.2 * B64.discipline o)%float.
Proof.
  intros _ (Hi & ->)%b64_nth_error_out. simpl.
  unfold B64.impact_raw_col.
  apply b64_nth_error_add; [apply b64_nth_error_add|];
    apply b64_nth_error_scale, nth_error_nth';
    now rewrite ?b64_scoring_length, ?b64_playmaking_length, ?b64_discipline_length.
Qed.

Lemma impact_raw_formula_binary64_witness :
  exists df o,
    B64.surviving Sample64.parse Sample64.five_and_one = B64.Ok df /\
    nth_error (B64.out df) 3 = Some o /\
    nth_error (B64.impact_raw_col df) 3
    = Some (0.5 * B64.scoring o + 0.3 * B64.playmaking o + 0.2 * B64.discipline o)%float.
Proof.
  eexists. eexists.
  split; [vm_compute; reflexivity|].
  split; [vm_compute; reflexivity|].
  apply (impact_raw_formula_binary64 Sample64.parse Sample64.five_and_one _ 3 _
           ltac:(vm_compute; reflexivity) ltac:(vm_compute; reflexivity)).
Defined.

(** X14: when the fetched table lacks one of the eight columns the run
    stops with a KeyError naming a missing column: the raw table has been
    written and the processed table is not. *)
Theorem missing_column_raises_key_error
        (parse_float : string -> option float) (df : B64.DataFrame) :
  (exists c, In c B64.cols /\ ~ In c (B64.columns df)) ->
  exists c, In c B64.cols /\ ~ In c (B64.columns df) /\
            B64.main parse_float df
            = B64.mkFiles df (B64.Raise (B64.KeyError c)).
Proof.
  intros H.
  destruct (mapM_get_loc_missing (B64.columns df) B64.cols H) as (c & Hc & Hm & E).
  exists c. split; [exact Hc|]. split; [exact Hm|].
  unfold B64.main, B64.surviving, B64.select. now rewrite E.
Qed.

Lemma missing_column_raises_key_error_witness :
  exists c, In c B64.cols /\
            ~ In c ["PLAYER_NAME"; "GP"; "PTS"; "REB"; "AST"; "TOV"; "FG_PCT"]%string /\
            B64.main Sample64.parse
              (B64.mkFrame ["PLAYER_NAME"; "GP"; "PTS"; "REB"; "AST"; "TOV"; "FG_PCT"]%string [])
            = B64.mkFiles
                (B64.mkFrame ["PLAYER_NAME"; "GP"; "PTS"; "REB"; "AST"; "TOV"; "FG_PCT"]%string [])
                (B64.Raise (B64.KeyError c)).
Proof.
  apply (missing_column_raises_key_error Sample64.parse
           (B64.mkFrame ["PLAYER_NAME"; "GP"; "PTS"; "REB"; "AST"; "TOV"; "FG_PCT"]%string [])).
  exists "FG3_PCT"%string. split.
  - simpl. tauto.
  - simpl. intros [H|[H|[H|[H|[H|[H|[H|[]]]]]]]]; discriminate H.
Defined.

Lemma mapM_ge_text (df : list (B64.Row B64.cell)) :
  (exists r s, In r df /\ B64.GP r = B64.Str s) ->
  B64.mapM (fun r => B64.ge (B64.GP r) 15) df = B64.Raise B64.TypeError.
Proof.
  induction df as [|r df IH]; intros (r0 & s & Hin & Hs); [destruct Hin|].
  simpl. destruct (B64.GP r) as [f|z|s'|] eqn:E; simpl; try reflexivity;
    (destruct Hin as [->|Hin]; [congruence|]);
    rewrite IH by eauto; reflexivity.
Qed.

(** X15: a text in the GP column is not dropped like a malformed
    statistic: the comparison with 15 raises a TypeError and the run stops
    after the raw table is written, whatever the other rows hold. *)
Theorem text_games_played_raises_type_error
        (parse_float : string -> option float) (df : B64.DataFrame)
        (selected : list (B64.Row B64.cell)) (r : B64.Row B64.cell) (s : string) :
  B64.select df = B64.Ok selected ->
  In r selected ->
  B64.GP r = B64.Str s ->
  B64.main parse_float df = B64.mkFiles df (B64.Raise B64.TypeError).
Proof.
  intros Hsel Hin Hs.
  unfold B64.main, B64.surviving. rewrite Hsel. simpl.
  unfold B64.volume_filter. rewrite mapM_ge_text by eauto. reflexivity.
Qed.

Lemma text_games_played_raises_type_error_witness :
  B64.main Sample64.parse
    (B64.mkFrame Sample64.labels
       [Sample64.stats "a" 20 10 1 2 1 0.5 0.3;
        [B64.Str "b"; B64.Str "twenty"; B64.Num 12; B64.Num 1; B64.Num 5;
         B64.Num 2; B64.Num 0.5; B64.Num 0.3; B64.Str "XYZ"]])
  = B64.mkFiles
      (B64.mkFrame Sample64.labels
         [Sample64.stats "a" 20 10 1 2 1 0.5 0.3;
          [B64.Str "b"; B64.Str "twenty"; B64.Num 12; B64.Num 1; B64.Num 5;
           B64.Num 2; B64.Num 0.5; B64.Num 0.3; B64.Str "XYZ"]])
      (B64.Raise B64.TypeError).
Proof.
  eapply (text_games_played_raises_type_error Sample64.parse).
  - vm_compute. reflexivity.
  - right. left. reflexivity.
  - reflexivity.
Defined.

(** The tier rule on the specification's example scores 1..10, in
    binary64: two busts, six role players, two stars. *)
Example tiers_of_one_to_ten :
  map (B64.tier_row (B64.quantile Sample64.one_to_ten 0.2)
                    (B64.quantile Sample64.one_to_ten 0.8))
      Sample64.one_to_ten
  = [B64.bust; B64.bust; B64.role_player; B64.role_player; B64.role_player;
     B64.role_player; B64.role_player; B64.role_player; B64.star; B64.star].
Proof. vm_compute. reflexivity. Qed.

(** End to end on the six-row sample, in binary64: the five rows with
    at least 15 games are emitted in their order with the placeholder
    height and weight, and the raw table keeps all six rows. *)
Example five_rows_end_to_end :
  B64.players_raw (B64.main Sample64.parse Sample64.five_and_one) = Sample64.five_and_one /\
  exists rows,
    B64.players_processed (B64.main Sample64.parse Sample64.five_and_one) = B64.Ok rows /\
    map B64.player_name rows
    = [B64.Str "Fifteen"; B64.Str "Sixteen"; B64.Str "Twenty";
       B64.Str "TwentyFive"; B64.Str "Thirty"] /\
    map B64.tier rows
    = [B64.bust; B64.role_player; B64.role_player; B64.star; B64.role_player] /\
    Forall (fun o => B64.height_m o = 2.0%float /\ B64.weight_kg o = 100.0%float) rows.
Proof.
  split; [reflexivity|]. eexists.
  split; [vm_compute; reflexivity|].
  split; [vm_compute; reflexivity|].
  split; [vm_compute; reflexivity|].
  repeat constructor.
Qed.
